(** * sql_db: the session layer of [sql_db/core.py]

    A shallow embedding of the three classes of [core.py]: the abstract
    [SQLSession] with its constructor, [df_to_db], [close] and the
    context-manager protocol, and its two subclasses [MSSQLSession] and
    [PostgreSQLSession].

    Python values that reach the run-time type checks are kept dynamic
    ([PyVal]).  Session objects live in a heap and are passed by reference.
    Everything the code hands to sqlalchemy, pandas, pyodbc or [print] is
    appended to a trace of events, in call order; whether such a call raises,
    and what [pd.read_sql] yields, is left to a [Runtime] the development is
    parametric in.  A raised exception leaves the mutations made so far in
    place, as in Python. *)

From Stdlib Require Import ZArith Ascii String.
From stdpp Require Import base option list strings pretty gmap.

Set Warnings "-register-all".

Local Open Scope string_scope.
Local Open Scope list_scope.

(** ** Python values *)

Inductive PyVal :=
| PyNone
| PyBool (b : bool)
| PyInt (z : Z)
| PyStr (s : string)
| PyList (l : list PyVal)
| PyTuple (l : list PyVal).

(** [isinstance(v, six.string_types)]: on Python 3 (the module uses
    f-strings) [six.string_types] is [(str,)]. *)
Definition isinstance_str (v : PyVal) : bool :=
  match v with PyStr _ => true | _ => false end.

(** [isinstance(v, list)] *)
Definition isinstance_list (v : PyVal) : bool :=
  match v with PyList _ => true | _ => false end.

(** Truth value of an object, as tested by [if] and [not]. *)
Definition truthy (v : PyVal) : bool :=
  match v with
  | PyNone => false
  | PyBool b => b
  | PyInt z => negb (Z.eqb z 0)
  | PyStr s => negb (String.eqb s "")
  | PyList l | PyTuple l => match l with [] => false | _ => true end
  end.

(** A pandas DataFrame: named columns and rows of cells. *)
Record DataFrame := { columns : list string; rows : list (list PyVal) }.

(** ** Exceptions *)

Inductive PyErr :=
| TypeError (msg : string)
| ValueError
| NotImplementedError
| AttributeError
| LibraryError (msg : string)
| Exception_ (msg : string) (cause : PyErr).

Inductive Result (A : Type) :=
| Ok (a : A)
| Err (e : PyErr).
Arguments Ok {A} a.
Arguments Err {A} e.

Definition is_value_error (e : PyErr) : bool :=
  match e with ValueError => true | _ => false end.

(** ** Events: the calls that leave this module

    A handle (engine, connection, raw connection, cursor) is the position in
    the trace of the call that returned it. *)

Definition handle := nat.

Inductive Event :=
| CreateEngine (url : string) (fast_executemany : bool)
| EngineConnect (engine : handle)
| ConClose (con : handle)
| ReadSql (sql : string) (con : handle)
| ToSql (df : DataFrame) (name : string) (index : PyVal) (schema : string)
        (con : handle) (if_exists : PyVal) (kwargs : list (string * PyVal))
| RawConnection (engine : handle)
| Cursor (raw : handle)
| CursorExecute (cursor : handle) (stmt : string) (params : list PyVal)
| CursorCommit (cursor : handle)
| Print (msg : string).

(** What the module cannot decide by itself. *)
Class Runtime := {
  (** [str(v)] of an object that is not a [str] *)
  py_str : PyVal -> string;
  (** the exception a library call raises, if any, given the calls so far *)
  lib_raises : list Event -> Event -> option PyErr;
  (** the frame [pd.read_sql(sql, con)] returns, given the calls so far *)
  read_sql_result : list Event -> string -> handle -> DataFrame
}.

(** ** Session objects and the world *)

Inductive Dialect := MSSQL | PostgreSQL.

Definition loc := nat.

Record Session := {
  cls : Dialect;
  server : string;
  port : PyVal;
  db : string;
  user : string;
  password : string;
  engine : handle;
  con : handle;
  is_connected : bool;
  is_silent : PyVal
}.

Record World := { heap : gmap loc Session; trace : list Event }.

(** ** The monad: state that survives a raise *)

Definition M (A : Type) : Type := World -> Result A * World.

#[global] Instance M_ret : MRet M := fun A a w => (Ok a, w).
#[global] Instance M_bind : MBind M := fun A B f m w =>
  match m w with
  | (Ok a, w') => f a w'
  | (Err e, w') => (Err e, w')
  end.

Definition raise {A} (e : PyErr) : M A := fun w => (Err e, w).

Definition emit (ev : Event) (w : World) : World :=
  {| heap := heap w; trace := trace w ++ [ev] |}.

(** [print(msg)] *)
Definition print (msg : string) : M unit := fun w => (Ok tt, emit (Print msg) w).

(** Attribute read on [self]. *)
Definition load (self : loc) : M Session := fun w =>
  match heap w !! self with
  | Some s => (Ok s, w)
  | None => (Err AttributeError, w)
  end.

(** Attribute write on [self]. *)
Definition store (self : loc) (s : Session) : M unit := fun w =>
  (Ok tt, {| heap := <[self := s]> (heap w); trace := trace w |}).

(** A new object. *)
Definition alloc (s : Session) : M loc := fun w =>
  let l := fresh (dom (heap w)) in
  (Ok l, {| heap := <[l := s]> (heap w); trace := trace w |}).

Definition set_is_connected (b : bool) (s : Session) : Session :=
  {| cls := cls s; server := server s; port := port s; db := db s;
     user := user s; password := password s; engine := engine s;
     con := con s; is_connected := b; is_silent := is_silent s |}.

(** ** String helpers of the Python runtime *)

Definition nl : string := String "010"%char "".
Definition dquote : string := String "034"%char "".

(** [symbol * n] *)
Fixpoint str_repeat (symbol : string) (n : nat) : string :=
  match n with
  | O => ""
  | S n' => symbol +:+ str_repeat symbol n'
  end.

(** [sep.join(parts)] *)
Fixpoint join (sep : string) (parts : list string) : string :=
  match parts with
  | [] => ""
  | [p] => p
  | p :: ps => p +:+ sep +:+ join sep ps
  end.

(** [s.split(sep)] for a one-character separator: every occurrence cuts,
    empty fields are kept, so there is one part more than separators. *)
Fixpoint split (sep : ascii) (s : string) : list string :=
  match s with
  | EmptyString => [EmptyString]
  | String c rest =>
      if Ascii.eqb c sep then EmptyString :: split sep rest
      else match split sep rest with
           | p :: ps => String c p :: ps
           | [] => [String c EmptyString]
           end
  end.

Fixpoint count_char (sep : ascii) (s : string) : nat :=
  match s with
  | EmptyString => 0
  | String c rest => (if Ascii.eqb c sep then 1 else 0) + count_char sep rest
  end.

Section WithRuntime.
Context {rt : Runtime}.

(** A call into sqlalchemy, pandas or the DB-API driver: logged, then it
    either raises or returns the handle it created. *)
Definition lib_call (ev : Event) : M handle := fun w =>
  match lib_raises (trace w) ev with
  | Some e => (Err e, emit ev w)
  | None => (Ok (length (trace w)), emit ev w)
  end.

(** [pd.read_sql(sql, con=con)] *)
Definition read_sql (sql : string) (c : handle) : M DataFrame := fun w =>
  match lib_raises (trace w) (ReadSql sql c) with
  | Some e => (Err e, emit (ReadSql sql c) w)
  | None => (Ok (read_sql_result (trace w) sql c), emit (ReadSql sql c) w)
  end.

(** A replacement field [{v}] of an f-string. *)
Definition fmt (v : PyVal) : string :=
  match v with
  | PyStr s => s
  | _ => py_str v
  end.

(** ** class SQLSession(ABC) *)

Section SQLSession.
(** The subclass: its tag and its [make_engine], which reads the five
    attributes stored just before it is called. *)
Variable class_ : Dialect.
Variable make_engine : string -> PyVal -> string -> string -> string -> M handle.

(** The banner of [print_message]; [len] counts the characters of the
    string, here the bytes of its encoding. *)
Definition connected_message (s : Session) (symbol : string) : string :=
  let fill_length :=
    Nat.max (Nat.max (String.length ("Server: " +:+ server s))
                     (String.length ("Database: " +:+ db s)))
            (String.length ("User: " +:+ user s)) in
  let fill := str_repeat symbol fill_length in
  "Connected to" +:+ nl +:+ fill +:+ nl +:+
  "Server: " +:+ server s +:+ nl +:+
  "Database: " +:+ db s +:+ nl +:+
  "User: " +:+ user s +:+ nl +:+ fill.

(** [print_message(self, symbol='-')] *)
Definition print_message (self : loc) (symbol : string) : M unit :=
  s ← load self;
  print (connected_message s symbol).

(** [__init__(self, *, server, port, db, user, password, silent)].  The
    object is entered into the heap once its connection exists, with the
    attributes the constructor has assigned when it returns; a constructor
    that raises leaves no reachable object behind. *)
Definition __init__ (server_ port_ db_ user_ password_ silent : PyVal) : M loc :=
  match server_, db_ with
  | PyStr srv, PyStr dbn =>
      match user_, password_ with
      | PyStr usr, PyStr pwd =>
          engine_ ← make_engine srv port_ dbn usr pwd;
          con_ ← lib_call (EngineConnect engine_);
          self ← alloc {| cls := class_; server := srv; port := port_;
                          db := dbn; user := usr; password := pwd;
                          engine := engine_; con := con_;
                          is_connected := true; is_silent := silent |};
          (if negb (truthy silent) then print_message self "-"
           else mret tt);;
          mret self
      | _, _ => raise (TypeError "user and password arguments should be strings")
      end
  | _, _ => raise (TypeError "server and db arguments should be strings")
  end.

End SQLSession.

Definition table_fullname_message : string :=
  "table_fullname argument should be like " +:+ dquote +:+
  "schema_name.table_name" +:+ dquote.

(** [df_to_db(self, df, table_fullname, index=False, if_exists='fail',
    **kwargs)]; the two-name unpacking of the split raises [ValueError]
    unless there are exactly two parts. *)
Definition df_to_db (self : loc) (df : DataFrame) (table_fullname : PyVal)
    (index if_exists : PyVal) (kwargs : list (string * PyVal)) : M unit :=
  match table_fullname with
  | PyStr name =>
      match split "." name with
      | [schema_name; table_name] =>
          s ← load self;
          lib_call (ToSql df table_name index schema_name (con s) if_exists kwargs);;
          mret tt
      | _ => raise (Exception_ table_fullname_message ValueError)
      end
  | _ => raise (TypeError "table_fullname argument should be a string")
  end.

Definition framed (message_ : string) : string :=
  let fill_symbol := "-" in
  let fill_length := String.length message_ in
  str_repeat fill_symbol fill_length +:+ nl +:+ message_ +:+ nl +:+
  str_repeat fill_symbol fill_length.

(** [close(self)]; [is_silent] is not written here, so the value read at
    entry is the one the last test sees. *)
Definition close (self : loc) : M unit :=
  s ← load self;
  message_ ← (if is_connected s then
                 lib_call (ConClose (con s));;
                 store self (set_is_connected false s);;
                 mret "Connection closed"
               else mret "Connection is already closed");
  if negb (truthy (is_silent s)) then print (framed message_) else mret tt.

(** [__enter__(self)] *)
Definition __enter__ (self : loc) : M loc := mret self.

(** [__exit__(self, exc_type, exc_value, traceback)]: no [return], so the
    result is [None]. *)
Definition __exit__ (self : loc) (exc : option PyErr) : M PyVal :=
  close self;; mret PyNone.

(** ** class MSSQLSession(SQLSession) *)

(** The f-string handed to [create_engine]. *)
Definition MSSQLSession_url (server_ : string) (port_ : PyVal)
    (db_ user_ password_ : string) : string :=
  "mssql+pyodbc://" +:+ user_ +:+ ":" +:+ password_ +:+
  "@" +:+ server_ +:+ ":" +:+ fmt port_ +:+ "/" +:+ db_ +:+
  "?driver=ODBC+Driver+13+for+SQL+Server".

Definition MSSQLSession_make_engine (server_ : string) (port_ : PyVal)
    (db_ user_ password_ : string) : M handle :=
  lib_call (CreateEngine (MSSQLSession_url server_ port_ db_ user_ password_) true).

Definition MSSQLSession_select_statement (self : loc) (query : PyVal) : M DataFrame :=
  match query with
  | PyStr q =>
      s ← load self;
      read_sql ("set nocount on; " +:+ q) (con s)
  | _ => raise (TypeError "query argument should be a string")
  end.

(** [exec_sp(self, sp_name, params=None)] *)
Definition MSSQLSession_exec_sp (self : loc) (sp_name params : PyVal) : M unit :=
  match sp_name with
  | PyStr sp =>
      params' ← match params with
                | PyNone => mret []
                | PyList l => mret l
                | _ => raise (TypeError "params argument should be a list")
                end;
      let params_template := join ", " (replicate (length params') "?") in
      s ← load self;
      raw ← lib_call (RawConnection (engine s));
      cursor ← lib_call (Cursor raw);
      lib_call (CursorExecute cursor
        ("set nocount on; exec " +:+ sp +:+ " " +:+ params_template) params');;
      lib_call (CursorCommit cursor);;
      mret tt
  | _ => raise (TypeError "query argument should be a string")
  end.

(** ** class PostgreSQLSession(SQLSession) *)

Definition PostgreSQLSession_url (server_ : string) (port_ : PyVal)
    (db_ user_ password_ : string) : string :=
  "postgres://" +:+ user_ +:+ ":" +:+ password_ +:+
  "@" +:+ server_ +:+ ":" +:+ fmt port_ +:+ "/" +:+ db_.

Definition PostgreSQLSession_make_engine (server_ : string) (port_ : PyVal)
    (db_ user_ password_ : string) : M handle :=
  lib_call (CreateEngine (PostgreSQLSession_url server_ port_ db_ user_ password_) false).

Definition PostgreSQLSession_select_statement (self : loc) (query : PyVal) : M DataFrame :=
  match query with
  | PyStr q =>
      s ← load self;
      read_sql q (con s)
  | _ => raise (TypeError "query argument should be a string")
  end.

Definition PostgreSQLSession_exec_sp (self : loc) (sp_name params : PyVal) : M unit :=
  raise NotImplementedError.

(** ** Method resolution through the object's class *)

Definition make_engine (d : Dialect) :=
  match d with
  | MSSQL => MSSQLSession_make_engine
  | PostgreSQL => PostgreSQLSession_make_engine
  end.

(** The [create_engine] call of each class. *)
Definition engine_call (d : Dialect) (server_ : string) (port_ : PyVal)
    (db_ user_ password_ : string) : Event :=
  match d with
  | MSSQL => CreateEngine (MSSQLSession_url server_ port_ db_ user_ password_) true
  | PostgreSQL => CreateEngine (PostgreSQLSession_url server_ port_ db_ user_ password_) false
  end.

(** [MSSQLSession(...)] or [PostgreSQLSession(...)] *)
Definition new (d : Dialect) := __init__ d (make_engine d).

Definition select_statement (self : loc) (query : PyVal) : M DataFrame :=
  s ← load self;
  match cls s with
  | MSSQL => MSSQLSession_select_statement self query
  | PostgreSQL => PostgreSQLSession_select_statement self query
  end.

Definition exec_sp (self : loc) (sp_name params : PyVal) : M unit :=
  s ← load self;
  match cls s with
  | MSSQL => MSSQLSession_exec_sp self sp_name params
  | PostgreSQL => PostgreSQLSession_exec_sp self sp_name params
  end.

(** ** The [with] statement

    [with session as v: body]: [__enter__] gives [v]; [__exit__] runs when
    the body returns and when it raises, and a raise of the body goes on
    unless [__exit__] returned a true value. *)
Definition with_ (self : loc) (body : loc -> M unit) : M unit := fun w =>
  match __enter__ self w with
  | (Err e, w0) => (Err e, w0)
  | (Ok v, w0) =>
      match body v w0 with
      | (Ok _, w1) =>
          match __exit__ self None w1 with
          | (Ok _, w2) => (Ok tt, w2)
          | (Err e', w2) => (Err e', w2)
          end
      | (Err e, w1) =>
          match __exit__ self (Some e) w1 with
          | (Ok r, w2) => if truthy r then (Ok tt, w2) else (Err e, w2)
          | (Err e', w2) => (Err e', w2)
          end
      end
  end.

End WithRuntime.

(** ** The public operations, as a caller can sequence them *)

Inductive Op :=
| OpNew (d : Dialect) (server_ port_ db_ user_ password_ silent : PyVal)
| OpPrintMessage (self : loc) (symbol : string)
| OpSelectStatement (self : loc) (query : PyVal)
| OpExecSp (self : loc) (sp_name params : PyVal)
| OpDfToDb (self : loc) (df : DataFrame) (table_fullname index if_exists : PyVal)
           (kwargs : list (string * PyVal))
| OpClose (self : loc)
| OpEnter (self : loc)
| OpExit (self : loc) (exc : option PyErr).

Section Operations.
Context {rt : Runtime}.

(** The world an operation leaves, whether it returned or raised (the
    caller may catch the exception and go on). *)
Definition run_op (o : Op) (w : World) : World :=
  match o with
  | OpNew d a b c e f g => snd (new d a b c e f g w)
  | OpPrintMessage self symbol => snd (print_message self symbol w)
  | OpSelectStatement self q => snd (select_statement self q w)
  | OpExecSp self sp ps => snd (exec_sp self sp ps w)
  | OpDfToDb self df t i e k => snd (df_to_db self df t i e k w)
  | OpClose self => snd (close self w)
  | OpEnter self => snd (__enter__ self w)
  | OpExit self exc => snd (__exit__ self exc w)
  end.

Definition run_ops (ops : list Op) (w : World) : World :=
  fold_left (fun w o => run_op o w) ops w.

End Operations.

(** The two-name unpacking of [table_fullname.split('.')] succeeds. *)
Definition two_parts (name : string) : bool :=
  Nat.eqb (length (split "." name)) 2.

(** [v is None] *)
Definition is_none (v : PyVal) : bool :=
  match v with PyNone => true | _ => false end.

(** What [close] prints: nothing for a silent session. *)
Definition notice (s : Session) (message_ : string) : list Event :=
  if truthy (is_silent s) then [] else [Print (framed message_)].

(** [self.is_connected], when the object exists. *)
Definition connected_flag (self : loc) (w : World) : option bool :=
  is_connected <$> heap w !! self.

(** Sequences in the sense of [collections.abc.Sequence]. *)
Definition is_sequence (v : PyVal) : bool :=
  match v with
  | PyStr _ | PyList _ | PyTuple _ => true
  | _ => false
  end.

(** ** Concrete runtimes and objects for the examples *)

(** [str] on the atoms; compound values do not occur in the examples. *)
Definition atom_str (v : PyVal) : string :=
  match v with
  | PyNone => "None"
  | PyBool true => "True"
  | PyBool false => "False"
  | PyInt z => pretty z
  | PyStr s => s
  | PyList _ | PyTuple _ => "[...]"
  end.

Definition echo_frame (sql : string) : DataFrame :=
  {| columns := ["sql"]; rows := [[PyStr sql]] |}.

(** Every library call succeeds. *)
Definition calm : Runtime :=
  {| py_str := atom_str;
     lib_raises := fun _ _ => None;
     read_sql_result := fun _ sql _ => echo_frame sql |}.

(** The connection cannot be closed. *)
Definition stuck_close : Runtime :=
  {| py_str := atom_str;
     lib_raises := fun _ ev =>
       match ev with
       | ConClose _ => Some (LibraryError "connection reset")
       | _ => None
       end;
     read_sql_result := fun _ sql _ => echo_frame sql |}.

(** [cursor.execute] fails, as for a procedure that does not exist. *)
Definition failing_execute : Runtime :=
  {| py_str := atom_str;
     lib_raises := fun _ ev =>
       match ev with
       | CursorExecute _ _ _ => Some (LibraryError "could not find stored procedure")
       | _ => None
       end;
     read_sql_result := fun _ sql _ => echo_frame sql |}.

(** [create_engine] fails, as when the DB-API driver is not installed. *)
Definition no_driver : Runtime :=
  {| py_str := atom_str;
     lib_raises := fun _ ev =>
       match ev with
       | CreateEngine _ _ => Some (LibraryError "no module named pyodbc")
       | _ => None
       end;
     read_sql_result := fun _ sql _ => echo_frame sql |}.

Definition sample_session (d : Dialect) (connected : bool) (silent : bool) : Session :=
  {| cls := d; server := "srv"; port := PyStr "1433"; db := "sales";
     user := "ann"; password := "pw"; engine := 0; con := 1;
     is_connected := connected; is_silent := PyBool silent |}.

Definition sample_trace : list Event :=
  [CreateEngine "postgres://ann:pw@srv:1433/sales" false; EngineConnect 0].

Definition sample_world (d : Dialect) (connected silent : bool) : World :=
  {| heap := {[ 0 := sample_session d connected silent ]};
     trace := sample_trace |}.

Definition empty_world : World := {| heap := ∅; trace := [] |}.

Definition sample_frame : DataFrame :=
  {| columns := ["id"; "name"]; rows := [[PyInt 1; PyStr "a"]] |}.

(** The world [w] with the [is_connected] of the object at [self] set to
    [b], everything else as it is. *)
Definition with_flag (b : bool) (self : loc) (w : World) : World :=
  {| heap := alter (set_is_connected b) self (heap w); trace := trace w |}.

(** * Properties *)

(** Unfold the monad and split on every test met on the way. *)
Ltac unfold_monad :=
  unfold mbind, M_bind, mret, M_ret, raise, load, store, print, lib_call,
    read_sql, emit in *.

Ltac crush_monad := unfold_monad; repeat (case_match; simplify_eq /=); try done.

Section Properties.
Context {rt : Runtime}.

(** ** Stepping through the monad *)

Lemma bind_ok {A B} (m : M A) (k : A -> M B) w a w' :
  m w = (Ok a, w') -> (m ≫= k) w = k a w'.
Proof. intros H. unfold mbind, M_bind. by rewrite H. Qed.

Lemma bind_err {A B} (m : M A) (k : A -> M B) w e w' :
  m w = (Err e, w') -> (m ≫= k) w = (Err e, w').
Proof. intros H. unfold mbind, M_bind. by rewrite H. Qed.

Lemma load_some self w s : heap w !! self = Some s -> load self w = (Ok s, w).
Proof. intros H. unfold load. by rewrite H. Qed.

Lemma load_none self w : heap w !! self = None -> load self w = (Err AttributeError, w).
Proof. intros H. unfold load. by rewrite H. Qed.

Lemma lib_call_ok ev w :
  lib_raises (trace w) ev = None ->
  lib_call ev w = (Ok (length (trace w)), emit ev w).
Proof. intros H. unfold lib_call. by rewrite H. Qed.

Lemma lib_call_err ev w e :
  lib_raises (trace w) ev = Some e -> lib_call ev w = (Err e, emit ev w).
Proof. intros H. unfold lib_call. by rewrite H. Qed.

Lemma lib_call_heap ev w : heap (snd (lib_call ev w)) = heap w.
Proof. unfold lib_call. by destruct (lib_raises _ _). Qed.

(** ** [split] *)

Lemma split_length sep s : length (split sep s) = S (count_char sep s).
Proof.
  induction s as [|c rest IH]; [done|].
  cbn [split count_char]. destruct (Ascii.eqb c sep).
  - cbn. by rewrite IH.
  - destruct (split sep rest) as [|p ps] eqn:E; cbn in *; lia.
Qed.

Lemma split_two_parts sep s :
  (exists a b, split sep s = [a; b]) <-> count_char sep s = 1.
Proof.
  pose proof (split_length sep s) as H. split.
  - intros (a & b & E). rewrite E in H. cbn in H. lia.
  - intros E. rewrite E in H.
    destruct (split sep s) as [|a [|b [|c l]]]; cbn in H; try lia. eauto.
Qed.

(** ** [close] case by case *)

Lemma close_connected self w s :
  heap w !! self = Some s -> is_connected s = true ->
  lib_raises (trace w) (ConClose (con s)) = None ->
  close self w =
    (Ok tt, {| heap := <[self := set_is_connected false s]> (heap w);
               trace := trace w ++ ConClose (con s) :: notice s "Connection closed" |}).
Proof.
  intros Hs Hc Hl. unfold close, notice.
  rewrite (bind_ok _ _ _ _ _ (load_some _ _ _ Hs)). rewrite Hc.
  unfold mbind, M_bind at 1. unfold mbind, M_bind at 1.
  rewrite (lib_call_ok _ _ Hl). cbn.
  destruct (truthy (is_silent s)); cbn; [done|].
  unfold print, emit; cbn. by rewrite <- app_assoc.
Qed.

Lemma close_connected_raises self w s e :
  heap w !! self = Some s -> is_connected s = true ->
  lib_raises (trace w) (ConClose (con s)) = Some e ->
  close self w = (Err e, emit (ConClose (con s)) w).
Proof.
  intros Hs Hc Hl. unfold close.
  rewrite (bind_ok _ _ _ _ _ (load_some _ _ _ Hs)). rewrite Hc.
  unfold mbind, M_bind at 1. unfold mbind, M_bind at 1.
  by rewrite (lib_call_err _ _ _ Hl).
Qed.

Lemma close_closed self w s :
  heap w !! self = Some s -> is_connected s = false ->
  close self w =
    (Ok tt, {| heap := heap w;
               trace := trace w ++ notice s "Connection is already closed" |}).
Proof.
  intros Hs Hc. unfold close, notice.
  rewrite (bind_ok _ _ _ _ _ (load_some _ _ _ Hs)). rewrite Hc. cbn.
  destruct (truthy (is_silent s)); cbn.
  - rewrite app_nil_r. by destruct w.
  - done.
Qed.

Lemma close_missing self w :
  heap w !! self = None -> close self w = (Err AttributeError, w).
Proof.
  intros Hs. unfold close. by rewrite (bind_err _ _ _ _ _ (load_none _ _ Hs)).
Qed.

(** ** What each operation does to the heap *)

Lemma print_message_heap self symbol w :
  heap (snd (print_message self symbol w)) = heap w.
Proof. unfold print_message. crush_monad. Qed.

Lemma select_statement_heap self q w :
  heap (snd (select_statement self q w)) = heap w.
Proof.
  unfold select_statement, MSSQLSession_select_statement,
    PostgreSQLSession_select_statement. crush_monad.
Qed.

Lemma exec_sp_heap self sp ps w : heap (snd (exec_sp self sp ps w)) = heap w.
Proof.
  unfold exec_sp, MSSQLSession_exec_sp, PostgreSQLSession_exec_sp. crush_monad.
Qed.

Lemma df_to_db_heap self df t i e k w :
  heap (snd (df_to_db self df t i e k w)) = heap w.
Proof. unfold df_to_db. crush_monad. Qed.

Lemma make_engine_call d srv p dbn usr pwd :
  make_engine d srv p dbn usr pwd = lib_call (engine_call d srv p dbn usr pwd).
Proof. by destruct d. Qed.

Lemma new_heap d a b c e f g w :
  heap (snd (new d a b c e f g w)) = heap w \/
  exists s, heap (snd (new d a b c e f g w)) = <[fresh (dom (heap w)) := s]> (heap w).
Proof.
  unfold new, __init__.
  destruct a, c, e, f; try (by left).
  rewrite make_engine_call. unfold print_message, alloc.
  unfold_monad. cbn.
  repeat (case_match; simplify_eq /=); eauto.
Qed.

(** The constructor on string credentials, call by call. *)
Lemma new_strings d srv p dbn usr pwd silent w :
  let ce := engine_call d srv p dbn usr pwd in
  let ec := EngineConnect (length (trace w)) in
  let l := fresh (dom (heap w)) in
  let s := {| cls := d; server := srv; port := p; db := dbn; user := usr;
              password := pwd; engine := length (trace w);
              con := length (trace w ++ [ce]);
              is_connected := true; is_silent := silent |} in
  new d (PyStr srv) p (PyStr dbn) (PyStr usr) (PyStr pwd) silent w =
  match lib_raises (trace w) ce with
  | Some e => (Err e, emit ce w)
  | None =>
      match lib_raises (trace w ++ [ce]) ec with
      | Some e => (Err e, emit ec (emit ce w))
      | None =>
          (Ok l, {| heap := <[l := s]> (heap w);
                    trace := (trace w ++ [ce; ec]) ++
                      if truthy silent then []
                      else [Print (connected_message s "-")] |})
      end
  end.
Proof.
  intros ce ec l s. unfold new, __init__. rewrite make_engine_call. fold ce.
  unfold mbind, M_bind at 1. unfold lib_call at 1.
  destruct (lib_raises (trace w) ce) as [e|]; [done|].
  unfold mbind, M_bind at 1. unfold lib_call at 1. cbn [trace emit]. fold ec.
  destruct (lib_raises (trace w ++ [ce]) ec) as [e|]; [done|].
  unfold mbind, M_bind at 1. unfold alloc. cbn [heap trace emit]. fold l s.
  unfold mbind, M_bind at 1.
  destruct (truthy silent); cbn [negb].
  - cbn. by rewrite app_nil_r, <- app_assoc.
  - unfold print_message. unfold mbind, M_bind at 1. unfold load. cbn [heap].
    rewrite lookup_insert_eq. unfold print, emit. cbn.
    by rewrite <- !app_assoc.
Qed.

(** ** A closed session stays closed *)

Lemma flag_insert_fresh self s w :
  connected_flag self w = Some false ->
  is_connected <$> (<[fresh (dom (heap w)) := s]> (heap w)) !! self = Some false.
Proof.
  unfold connected_flag. intros H.
  rewrite lookup_insert_ne; [done|].
  intros <-. pose proof (is_fresh (dom (heap w))) as Hf.
  apply not_elem_of_dom in Hf. by rewrite Hf in H.
Qed.

Lemma close_keeps_closed self l w :
  connected_flag self w = Some false ->
  connected_flag self (snd (close l w)) = Some false.
Proof.
  unfold connected_flag. intros H.
  destruct (heap w !! l) as [s|] eqn:Hl; [|by rewrite (close_missing _ _ Hl)].
  destruct (is_connected s) eqn:Hc; [|by rewrite (close_closed _ _ _ Hl Hc)].
  destruct (lib_raises (trace w) (ConClose (con s))) as [e|] eqn:He.
  - by rewrite (close_connected_raises _ _ _ _ Hl Hc He).
  - rewrite (close_connected _ _ _ Hl Hc He). cbn.
    rewrite lookup_insert_ne; [done|].
    intros ->. rewrite Hl in H. cbn in H. congruence.
Qed.

Lemma exit_world self exc w : snd (__exit__ self exc w) = snd (close self w).
Proof.
  unfold __exit__, mbind, M_bind. by destruct (close self w) as [[[]|e] w'].
Qed.

Lemma run_op_keeps_closed self o w :
  connected_flag self w = Some false ->
  connected_flag self (run_op o w) = Some false.
Proof.
  intros H. destruct o; cbn [run_op].
  - destruct (new_heap d server_ port_ db_ user_ password_ silent w) as [E|[s E]];
      unfold connected_flag; rewrite E; [done|by apply flag_insert_fresh].
  - unfold connected_flag. by rewrite print_message_heap.
  - unfold connected_flag. by rewrite select_statement_heap.
  - unfold connected_flag. by rewrite exec_sp_heap.
  - unfold connected_flag. by rewrite df_to_db_heap.
  - by apply close_keeps_closed.
  - done.
  - rewrite exit_world. by apply close_keeps_closed.
Qed.

Lemma run_ops_keep_closed self ops : forall w,
  connected_flag self w = Some false ->
  connected_flag self (run_ops ops w) = Some false.
Proof.
  induction ops as [|o ops IH]; intros w H; [done|].
  cbn. apply IH. by apply run_op_keeps_closed.
Qed.

Lemma two_parts_one_separator name :
  two_parts name = true <-> count_char "." name = 1.
Proof.
  unfold two_parts. rewrite split_length, Nat.eqb_eq. lia.
Qed.

(** ** The claims *)

(** C1 (as amended): for every [table_fullname] that is not a string
    splitting on '.' into exactly two parts (that is, a string with exactly
    one '.'), [df_to_db] raises and the world is untouched, so
    [df.to_sql] is never called.  The exception is a plain [Exception]
    with the "schema_name.table_name" message, chained from the
    [ValueError] of the failed unpacking, when the argument is a string,
    and a [TypeError] when it is not a string. *)
Theorem df_to_db_rejects_malformed_name self df t index if_exists kwargs w :
  (forall name, t = PyStr name -> count_char "." name <> 1) ->
  df_to_db self df t index if_exists kwargs w =
    (Err (match t with
          | PyStr _ => Exception_ table_fullname_message ValueError
          | _ => TypeError "table_fullname argument should be a string"
          end), w).
Proof.
  intros H. unfold df_to_db. destruct t as [| | |name| |]; try done.
  specialize (H name eq_refl).
  destruct (split "." name) as [|a [|b [|c l]]] eqn:E; try done.
  exfalso. apply H. apply split_two_parts. eauto.
Qed.

(** C2: when one of [server], [db], [user], [password] is not a string the
    constructor of either class raises [TypeError] and leaves the world as
    it was: no [create_engine] call, no [connect] call, no object. *)
Theorem constructor_rejects_non_strings d server_ port_ db_ user_ password_ silent w :
  isinstance_str server_ && isinstance_str db_ &&
    isinstance_str user_ && isinstance_str password_ = false ->
  exists msg,
    new d server_ port_ db_ user_ password_ silent w = (Err (TypeError msg), w).
Proof.
  intros H. unfold new, __init__.
  destruct server_, db_; try (eexists; reflexivity);
    destruct user_, password_; try (eexists; reflexivity); done.
Qed.

(** C3: a constructor that returns leaves [is_connected] true on the new
    object; a [close()] that returns on a connected session leaves it false
    (and it does return whenever the connection's own [close] does); and
    from then on no sequence of operations of the classes, on this or any
    other session, returned or raised, makes it true again. *)
Theorem is_connected_lifecycle :
  (forall d a b c e f g w self w',
      new d a b c e f g w = (Ok self, w') ->
      connected_flag self w' = Some true) /\
  (forall self w w',
      connected_flag self w = Some true ->
      close self w = (Ok tt, w') ->
      connected_flag self w' = Some false) /\
  (forall self w s,
      heap w !! self = Some s -> is_connected s = true ->
      lib_raises (trace w) (ConClose (con s)) = None ->
      fst (close self w) = Ok tt) /\
  (forall self ops w,
      connected_flag self w = Some false ->
      connected_flag self (run_ops ops w) = Some false).
Proof.
  repeat split.
  - intros d a b c e f g w self w' H.
    destruct a as [| | |srv| |]; try done. destruct c as [| | |dbn| |]; try done.
    destruct e as [| | |usr| |]; try done. destruct f as [| | |pwd| |]; try done.
    rewrite new_strings in H.
    destruct (lib_raises _ _); [done|]. destruct (lib_raises _ _); [done|].
    simplify_eq. unfold connected_flag. cbn. by rewrite lookup_insert_eq.
  - unfold connected_flag. intros self w w' H Hc.
    destruct (heap w !! self) as [s|] eqn:Hs; [|done]. cbn in H.
    assert (is_connected s = true) as Hcon by congruence.
    destruct (lib_raises (trace w) (ConClose (con s))) as [e|] eqn:He.
    + rewrite (close_connected_raises _ _ _ _ Hs Hcon He) in Hc. done.
    + rewrite (close_connected _ _ _ Hs Hcon He) in Hc. simplify_eq. cbn.
      by rewrite lookup_insert_eq.
  - intros self w s Hs Hc He. by rewrite (close_connected _ _ _ Hs Hc He).
  - intros self ops w. apply run_ops_keep_closed.
Qed.

(** C4: [close()] on a session that is already closed returns without
    raising; the heap is unchanged, the connection's [close] is not called
    again, and the only event is the notice 'Connection is already closed'
    unless the session is silent.  The first [close()] of a connected
    session calls the connection's [close] once and says 'Connection
    closed'; the two notices differ. *)
Theorem close_twice_is_safe :
  (forall self w s,
      heap w !! self = Some s -> is_connected s = false ->
      close self w =
        (Ok tt, {| heap := heap w;
                   trace := trace w ++
                     if truthy (is_silent s) then []
                     else [Print (framed "Connection is already closed")] |})) /\
  (forall self w s,
      heap w !! self = Some s -> is_connected s = true ->
      lib_raises (trace w) (ConClose (con s)) = None ->
      exists w1,
        close self w = (Ok tt, w1) /\
        trace w1 = trace w ++ ConClose (con s) ::
                     (if truthy (is_silent s) then []
                      else [Print (framed "Connection closed")]) /\
        close self w1 =
          (Ok tt, {| heap := heap w1;
                     trace := trace w1 ++
                       if truthy (is_silent s) then []
                       else [Print (framed "Connection is already closed")] |})) /\
  framed "Connection is already closed" <> framed "Connection closed".
Proof.
  split; [|split].
  - intros self w s Hs Hc. apply (close_closed _ _ _ Hs Hc).
  - intros self w s Hs Hc He. eexists. split; [apply (close_connected _ _ _ Hs Hc He)|].
    split; [done|].
    apply (close_closed _ _ (set_is_connected false s)); [|done].
    cbn. by rewrite lookup_insert_eq.
  - done.
Qed.

(** C5: [__enter__] returns the reference it was called on and changes
    nothing.  A [with] block runs [close()] in the world its body left,
    whether the body returned or raised, and the body's exception goes on
    to the caller since [__exit__] returns [None].  So, when the session's
    connection can be closed (or the body already closed it),
    [is_connected] is false after the block on both paths. *)
Theorem scope_exit_closes self body w :
  __enter__ self w = (Ok self, w) /\
  (forall r1 w1, body self w = (r1, w1) ->
     with_ self body w =
       match close self w1 with
       | (Ok _, w2) => (r1, w2)
       | (Err e, w2) => (Err e, w2)
       end) /\
  (forall r1 w1 s, body self w = (r1, w1) ->
     heap w1 !! self = Some s ->
     (is_connected s = true ->
      lib_raises (trace w1) (ConClose (con s)) = None) ->
     fst (with_ self body w) = r1 /\
     connected_flag self (snd (with_ self body w)) = Some false).
Proof.
  assert (forall r1 w1, body self w = (r1, w1) ->
     with_ self body w =
       match close self w1 with
       | (Ok _, w2) => (r1, w2)
       | (Err e, w2) => (Err e, w2)
       end) as Hwith.
  { intros r1 w1 Hb. unfold with_, __enter__. cbn. rewrite Hb.
    unfold __exit__, mbind, M_bind.
    destruct r1 as [[]|e]; destruct (close self w1) as [[[]|e'] w2]; done. }
  split; [done|]. split; [done|].
  intros r1 w1 s Hb Hs Hl. rewrite (Hwith _ _ Hb). unfold connected_flag.
  destruct (is_connected s) eqn:Hc.
  - rewrite (close_connected _ _ _ Hs Hc (Hl eq_refl)). cbn.
    by rewrite lookup_insert_eq.
  - rewrite (close_closed _ _ _ Hs Hc). cbn. rewrite Hs. cbn. by rewrite Hc.
Qed.

(** C6: [exec_sp] of a PostgreSQL session raises [NotImplementedError]
    for every [sp_name] and [params], called on the class or through the
    object, and leaves the world as it was: no library call, no attribute
    written. *)
Theorem postgres_exec_sp_not_implemented self sp_name params w :
  PostgreSQLSession_exec_sp self sp_name params w = (Err NotImplementedError, w) /\
  (forall s, heap w !! self = Some s -> cls s = PostgreSQL ->
     exec_sp self sp_name params w = (Err NotImplementedError, w)).
Proof.
  split; [done|]. intros s Hs Hd. unfold exec_sp.
  rewrite (bind_ok _ _ _ _ _ (load_some _ _ _ Hs)). by rewrite Hd.
Qed.

(** C7: [select_statement] with a [query] that is not a string raises
    [TypeError] in both classes (and so through any session object), with
    the world as it was: [pd.read_sql] is not called. *)
Theorem select_statement_rejects_non_string self query w :
  isinstance_str query = false ->
  (exists msg, MSSQLSession_select_statement self query w = (Err (TypeError msg), w)) /\
  (exists msg, PostgreSQLSession_select_statement self query w = (Err (TypeError msg), w)) /\
  (forall s, heap w !! self = Some s ->
     exists msg, select_statement self query w = (Err (TypeError msg), w)).
Proof.
  intros H. destruct query; try done; (split; [|split]);
    try (eexists; reflexivity);
    intros s Hs; unfold select_statement;
    rewrite (bind_ok _ _ _ _ _ (load_some _ _ _ Hs));
    destruct (cls s); eexists; reflexivity.
Qed.

(** C8 (as amended): [MSSQLSession.exec_sp] with an [sp_name] that is not a
    string, or with [params] that is neither [None] nor a list, raises
    [TypeError] with the world as it was: no raw connection, no cursor,
    nothing executed or committed. *)
Theorem mssql_exec_sp_rejects_bad_arguments self sp_name params w :
  isinstance_str sp_name = false \/
  (is_none params = false /\ isinstance_list params = false) ->
  exists msg, MSSQLSession_exec_sp self sp_name params w = (Err (TypeError msg), w).
Proof.
  intros [H|[Hn Hl]]; unfold MSSQLSession_exec_sp.
  - destruct sp_name; try done; eexists; reflexivity.
  - destruct sp_name; try (eexists; reflexivity).
    destruct params; try done; eexists; reflexivity.
Qed.

(** C9: for a string [query], [MSSQLSession.select_statement] makes one
    library call, [pd.read_sql] on 'set nocount on; ' followed by the
    query and on the connection opened by the constructor, and returns
    the frame that call yields (or raises what it raises). *)
Theorem mssql_select_statement_prefixes self q w s :
  heap w !! self = Some s ->
  let sql := "set nocount on; " +:+ q in
  MSSQLSession_select_statement self (PyStr q) w =
    (match lib_raises (trace w) (ReadSql sql (con s)) with
     | None => Ok (read_sql_result (trace w) sql (con s))
     | Some e => Err e
     end,
     {| heap := heap w; trace := trace w ++ [ReadSql sql (con s)] |}) /\
  (cls s = MSSQL ->
   select_statement self (PyStr q) w = MSSQLSession_select_statement self (PyStr q) w).
Proof.
  intros Hs sql. split.
  - unfold MSSQLSession_select_statement.
    rewrite (bind_ok _ _ _ _ _ (load_some _ _ _ Hs)). fold sql.
    unfold read_sql, emit. by destruct (lib_raises _ _).
  - intros Hd. unfold select_statement.
    rewrite (bind_ok _ _ _ _ _ (load_some _ _ _ Hs)). by rewrite Hd.
Qed.

(** C10: with string [server], [db], [user] and [password], whatever
    [port] is, the constructor gets past validation: its first effect is
    the [create_engine] call of the class, whose URL carries the
    formatted [port]; an exception, if any, is one raised by
    [create_engine] or by [connect]; otherwise the new object holds the
    very [port] it was given. *)
Theorem port_is_not_type_checked d srv port_ dbn usr pwd silent w :
  let ce := engine_call d srv port_ dbn usr pwd in
  let ec := EngineConnect (length (trace w)) in
  let out := new d (PyStr srv) port_ (PyStr dbn) (PyStr usr) (PyStr pwd) silent w in
  (exists rest, trace (snd out) = trace w ++ ce :: rest) /\
  match fst out with
  | Ok self =>
      lib_raises (trace w) ce = None /\
      lib_raises (trace w ++ [ce]) ec = None /\
      exists s', heap (snd out) !! self = Some s' /\ port s' = port_
  | Err e =>
      lib_raises (trace w) ce = Some e \/
      (lib_raises (trace w) ce = None /\ lib_raises (trace w ++ [ce]) ec = Some e)
  end.
Proof.
  intros ce ec out. subst out. rewrite new_strings. fold ce ec.
  destruct (lib_raises (trace w) ce) as [e|] eqn:H1; cbn.
  { split; [by exists []|by left]. }
  destruct (lib_raises (trace w ++ [ce]) ec) as [e|] eqn:H2; cbn.
  { split; [|by right]. exists [ec]. by rewrite <- app_assoc. }
  split.
  - eexists. rewrite <- app_assoc. reflexivity.
  - do 2 (split; [done|]). eexists. by rewrite lookup_insert_eq.
Qed.

End Properties.

(** * The claims at concrete inputs *)

(** C1, as first stated, fails: "onlytablename" has one part, and the
    exception [df_to_db] raises for it is the plain [Exception] built in
    the [except] clause, not a [ValueError]. *)
Lemma df_to_db_error_is_not_a_value_error :
  two_parts "onlytablename" = false /\
  exists e,
    df_to_db (rt := calm) 0 sample_frame (PyStr "onlytablename")
      (PyBool false) (PyStr "fail") [] (sample_world MSSQL true true)
    = (Err e, sample_world MSSQL true true) /\
    e = Exception_ table_fullname_message ValueError /\
    is_value_error e = false.
Proof.
  split; [reflexivity|]. eexists. split; [reflexivity|]. split; reflexivity.
Qed.

Lemma df_to_db_rejects_malformed_name_witness :
  df_to_db (rt := calm) 0 sample_frame (PyStr "a.b.c") (PyBool false)
    (PyStr "fail") [] (sample_world MSSQL true true)
  = (Err (Exception_ table_fullname_message ValueError),
     sample_world MSSQL true true) /\
  df_to_db (rt := calm) 0 sample_frame (PyInt 7) (PyBool false)
    (PyStr "fail") [] (sample_world MSSQL true true)
  = (Err (TypeError "table_fullname argument should be a string"),
     sample_world MSSQL true true).
Proof.
  split.
  - apply (df_to_db_rejects_malformed_name (rt := calm) 0 sample_frame (PyStr "a.b.c")).
    intros name [= <-]. vm_compute. discriminate.
  - apply (df_to_db_rejects_malformed_name (rt := calm) 0 sample_frame (PyInt 7)).
    intros name [=].
Defined.

Lemma constructor_rejects_non_strings_witness :
  exists msg,
    new (rt := calm) PostgreSQL (PyStr "srv") (PyStr "5432") (PyStr "sales")
      (PyInt 42) (PyStr "pw") (PyBool true) empty_world
    = (Err (TypeError msg), empty_world).
Proof.
  apply (constructor_rejects_non_strings (rt := calm)). reflexivity.
Defined.

Lemma is_connected_lifecycle_witness :
  let w1 := snd (new (rt := calm) MSSQL (PyStr "srv") (PyInt 1433) (PyStr "sales")
                   (PyStr "ann") (PyStr "pw") (PyBool true) empty_world) in
  let w2 := snd (close (rt := calm) 0 w1) in
  connected_flag 0 w1 = Some true /\
  connected_flag 0 w2 = Some false /\
  connected_flag 0
    (run_ops (rt := calm)
       [OpSelectStatement 0 (PyStr "select 1");
        OpNew MSSQL (PyStr "srv") (PyInt 1433) (PyStr "sales") (PyStr "ann")
          (PyStr "pw") (PyBool true);
        OpClose 0; OpExit 0 None] w2) = Some false.
Proof.
  intros w1 w2.
  destruct (is_connected_lifecycle (rt := calm)) as (Hnew & Hclose & _ & Hstay).
  assert (connected_flag 0 w1 = Some true) as H1.
  { apply (Hnew MSSQL (PyStr "srv") (PyInt 1433) (PyStr "sales") (PyStr "ann")
             (PyStr "pw") (PyBool true) empty_world).
    vm_compute. reflexivity. }
  assert (connected_flag 0 w2 = Some false) as H2.
  { apply (Hclose 0 w1 w2 H1). vm_compute. reflexivity. }
  split; [exact H1|]. split; [exact H2|]. apply Hstay. exact H2.
Defined.

Lemma close_twice_is_safe_witness :
  close (rt := calm) 0 (sample_world MSSQL false false)
  = (Ok tt, {| heap := heap (sample_world MSSQL false false);
               trace := sample_trace ++
                 [Print (framed "Connection is already closed")] |}).
Proof.
  destruct (close_twice_is_safe (rt := calm)) as (Hclosed & _ & _).
  apply (Hclosed 0 (sample_world MSSQL false false) (sample_session MSSQL false false));
    reflexivity.
Defined.

Lemma scope_exit_closes_witness :
  let body := fun _ : loc => raise (A := unit) (LibraryError "boom") in
  let out := with_ (rt := calm) 0 body (sample_world MSSQL true false) in
  fst out = Err (LibraryError "boom") /\ connected_flag 0 (snd out) = Some false.
Proof.
  intros body out.
  destruct (scope_exit_closes (rt := calm) 0 body (sample_world MSSQL true false))
    as (_ & _ & H).
  apply (H (Err (LibraryError "boom")) (sample_world MSSQL true false)
           (sample_session MSSQL true false)); reflexivity.
Defined.

Lemma postgres_exec_sp_not_implemented_witness :
  exec_sp (rt := calm) 0 (PyStr "sp1") (PyList [PyInt 1; PyInt 2])
    (sample_world PostgreSQL true false)
  = (Err NotImplementedError, sample_world PostgreSQL true false).
Proof.
  destruct (postgres_exec_sp_not_implemented (rt := calm) 0 (PyStr "sp1")
              (PyList [PyInt 1; PyInt 2]) (sample_world PostgreSQL true false))
    as (_ & H).
  apply (H (sample_session PostgreSQL true false)); reflexivity.
Defined.

Lemma select_statement_rejects_non_string_witness :
  (exists msg, MSSQLSession_select_statement (rt := calm) 0 (PyInt 123)
     (sample_world MSSQL true false)
     = (Err (TypeError msg), sample_world MSSQL true false)) /\
  (exists msg, PostgreSQLSession_select_statement (rt := calm) 0 (PyInt 123)
     (sample_world MSSQL true false)
     = (Err (TypeError msg), sample_world MSSQL true false)).
Proof.
  destruct (select_statement_rejects_non_string (rt := calm) 0 (PyInt 123)
              (sample_world MSSQL true false) eq_refl) as (H1 & H2 & _).
  exact (conj H1 H2).
Defined.

(** C8, as first stated, fails: [None] is not a sequence, yet [exec_sp]
    takes it for the empty parameter list and goes on to the driver. *)
Lemma mssql_exec_sp_accepts_None :
  is_sequence PyNone = false /\
  MSSQLSession_exec_sp (rt := calm) 0 (PyStr "sp1") PyNone (sample_world MSSQL true true)
  = (Ok tt,
     {| heap := heap (sample_world MSSQL true true);
        trace := sample_trace ++
          [RawConnection 0; Cursor 2;
           CursorExecute 3 "set nocount on; exec sp1 " []; CursorCommit 3] |}).
Proof. split; reflexivity. Qed.

Lemma mssql_exec_sp_rejects_bad_arguments_witness :
  (exists msg, MSSQLSession_exec_sp (rt := calm) 0 (PyInt 5) (PyList [])
     (sample_world MSSQL true true)
     = (Err (TypeError msg), sample_world MSSQL true true)) /\
  (exists msg, MSSQLSession_exec_sp (rt := calm) 0 (PyStr "sp1")
     (PyTuple [PyInt 1; PyInt 2]) (sample_world MSSQL true true)
     = (Err (TypeError msg), sample_world MSSQL true true)).
Proof.
  split.
  - apply (mssql_exec_sp_rejects_bad_arguments (rt := calm)). left. reflexivity.
  - apply (mssql_exec_sp_rejects_bad_arguments (rt := calm)). right.
    split; reflexivity.
Defined.

Lemma mssql_select_statement_prefixes_witness :
  MSSQLSession_select_statement (rt := calm) 0 (PyStr "select 1")
    (sample_world MSSQL true true)
  = (Ok (echo_frame "set nocount on; select 1"),
     {| heap := heap (sample_world MSSQL true true);
        trace := sample_trace ++ [ReadSql "set nocount on; select 1" 1] |}).
Proof.
  destruct (mssql_select_statement_prefixes (rt := calm) 0 "select 1"
              (sample_world MSSQL true true) (sample_session MSSQL true true)
              eq_refl) as (H & _).
  exact H.
Defined.

Lemma port_is_not_type_checked_witness :
  let out := new (rt := calm) MSSQL (PyStr "srv") (PyInt 1433) (PyStr "sales")
               (PyStr "ann") (PyStr "pw") (PyBool true) empty_world in
  exists rest,
    trace (snd out) =
      CreateEngine
        "mssql+pyodbc://ann:pw@srv:1433/sales?driver=ODBC+Driver+13+for+SQL+Server"
        true :: rest.
Proof.
  intros out.
  destruct (port_is_not_type_checked (rt := calm) MSSQL "srv" (PyInt 1433) "sales"
              "ann" "pw" (PyBool true) empty_world) as ((rest & H) & _).
  exists rest. exact H.
Defined.

(** When the connection's own [close] raises, [close()] raises the same
    exception after the call and before the flag is cleared; this is the
    case the hypotheses on [lib_raises] above leave out. *)
Example close_that_raises_keeps_flag :
  let out := close (rt := stuck_close) 0 (sample_world MSSQL true false) in
  fst out = Err (LibraryError "connection reset") /\
  trace (snd out) = sample_trace ++ [ConClose 1] /\
  connected_flag 0 (snd out) = Some true.
Proof. repeat split; reflexivity. Qed.

(** * Further properties of the code *)

(** ** Strings *)


Lemma str_app_cons x (a b : string) : String x a +:+ b = String x (a +:+ b).
Proof. reflexivity. Qed.

Lemma str_app_assoc (a b c : string) : (a +:+ b) +:+ c = a +:+ (b +:+ c).
Proof.
  induction a as [|x a' IH]; [done|]. rewrite !str_app_cons. by f_equal.
Qed.

Lemma str_app_length (a b : string) :
  String.length (a +:+ b) = String.length a + String.length b.
Proof.
  induction a as [|x a' IH]; [done|]. rewrite str_app_cons. cbn. by f_equal.
Qed.

Lemma count_char_app sep (a b : string) :
  count_char sep (a +:+ b) = count_char sep a + count_char sep b.
Proof.
  induction a as [|x a' IH]; [done|]. rewrite str_app_cons. cbn.
  rewrite IH. lia.
Qed.

Lemma str_repeat_length symbol n :
  String.length (str_repeat symbol n) = n * String.length symbol.
Proof.
  induction n as [|n IH]; [done|]. cbn [str_repeat].
  rewrite str_app_length, IH. lia.
Qed.


Lemma join_cons sep p ps :
  ps <> [] -> join sep (p :: ps) = p +:+ sep +:+ join sep ps.
Proof. by destruct ps. Qed.



Section MoreProperties.
Context {rt : Runtime}.

(** ** [df_to_db] *)


(** ** [MSSQLSession.exec_sp] *)

Lemma replicate_mark_not_nil n : replicate (S n) "?" <> [].
Proof. done. Qed.

(** X2: the parameter template of [exec_sp] has one '?' for each
    parameter, one ',' between neighbours, and nothing else but the
    blanks after the commas. *)
Theorem placeholders_one_per_parameter n :
  count_char "?" (join ", " (replicate n "?")) = n /\
  count_char "," (join ", " (replicate n "?")) = n - 1 /\
  String.length (join ", " (replicate n "?")) = 3 * n - 2.
Proof.
  destruct n as [|n]; [done|].
  induction n as [|n (IH1 & IH2 & IH3)]; [done|].
  change (replicate (S (S n)) "?") with ("?" :: replicate (S n) "?").
  rewrite join_cons by apply replicate_mark_not_nil.
  rewrite !count_char_app, !str_app_length, IH1, IH2, IH3. cbn. lia.
Qed.

(** X3: with a string [sp_name] and [params] a list or [None] (taken as
    the empty list), and a driver that does not raise, [exec_sp] makes
    four library calls in this order: a raw connection from the engine
    (not the session's connection), a cursor on it, [execute] of
    'set nocount on; exec <sp_name> <template>' with the parameters, and
    [commit] on that cursor.  It returns [None] and writes no attribute;
    [is_connected] is not consulted. *)
Theorem mssql_exec_sp_call_sequence self sp params ps w s :
  heap w !! self = Some s ->
  (params = PyNone /\ ps = []) \/ params = PyList ps ->
  let n := length (trace w) in
  let stmt := "set nocount on; exec " +:+ sp +:+ " " +:+
              join ", " (replicate (length ps) "?") in
  let e1 := RawConnection (engine s) in
  let e2 := Cursor n in
  let e3 := CursorExecute (S n) stmt ps in
  let e4 := CursorCommit (S n) in
  lib_raises (trace w) e1 = None ->
  lib_raises (trace w ++ [e1]) e2 = None ->
  lib_raises (trace w ++ [e1; e2]) e3 = None ->
  lib_raises (trace w ++ [e1; e2; e3]) e4 = None ->
  MSSQLSession_exec_sp self (PyStr sp) params w =
    (Ok tt, {| heap := heap w; trace := trace w ++ [e1; e2; e3; e4] |}).
Proof.
  intros Hs Hp n stmt e1 e2 e3 e4 H1 H2 H3 H4.
  assert ((match params with
           | PyNone => mret []
           | PyList l => mret l
           | _ => raise (TypeError "params argument should be a list")
           end : M (list PyVal)) w = (Ok ps, w)) as Hps.
  { by destruct Hp as [[-> ->]| ->]. }
  unfold MSSQLSession_exec_sp.
  rewrite (bind_ok _ _ _ _ _ Hps).
  rewrite (bind_ok _ _ _ _ _ (load_some _ _ _ Hs)).
  rewrite (bind_ok _ _ _ _ _ (lib_call_ok _ _ H1)). fold n.
  assert (length (trace (emit e1 w)) = S n) as Hlen.
  { cbn. rewrite length_app. cbn. subst n. lia. }
  rewrite (bind_ok _ _ _ _ _ (lib_call_ok e2 (emit e1 w) H2)). rewrite Hlen.
  fold stmt.
  assert (trace (emit e2 (emit e1 w)) = trace w ++ [e1; e2]) as Ht2.
  { cbn. by rewrite <- app_assoc. }
  assert (lib_raises (trace (emit e2 (emit e1 w))) e3 = None) as H3'
    by (by rewrite Ht2).
  rewrite (bind_ok _ _ _ _ _ (lib_call_ok e3 _ H3')).
  assert (trace (emit e3 (emit e2 (emit e1 w))) = trace w ++ [e1; e2; e3]) as Ht3.
  { cbn. by rewrite <- !app_assoc. }
  assert (lib_raises (trace (emit e3 (emit e2 (emit e1 w)))) e4 = None) as H4'
    by (by rewrite Ht3).
  rewrite (bind_ok _ _ _ _ _ (lib_call_ok e4 _ H4')).
  unfold mret, M_ret, emit. cbn. by rewrite <- !app_assoc.
Qed.

(** X4: when [cursor.execute] raises, [exec_sp] raises the same
    exception and [commit] is not called: the raw connection, the cursor
    and the failed [execute] are the only calls made. *)
Theorem mssql_exec_sp_failed_execute_skips_commit self sp params ps w s e :
  heap w !! self = Some s ->
  (params = PyNone /\ ps = []) \/ params = PyList ps ->
  let n := length (trace w) in
  let stmt := "set nocount on; exec " +:+ sp +:+ " " +:+
              join ", " (replicate (length ps) "?") in
  let e1 := RawConnection (engine s) in
  let e2 := Cursor n in
  let e3 := CursorExecute (S n) stmt ps in
  lib_raises (trace w) e1 = None ->
  lib_raises (trace w ++ [e1]) e2 = None ->
  lib_raises (trace w ++ [e1; e2]) e3 = Some e ->
  MSSQLSession_exec_sp self (PyStr sp) params w =
    (Err e, {| heap := heap w; trace := trace w ++ [e1; e2; e3] |}).
Proof.
  intros Hs Hp n stmt e1 e2 e3 H1 H2 H3.
  assert ((match params with
           | PyNone => mret []
           | PyList l => mret l
           | _ => raise (TypeError "params argument should be a list")
           end : M (list PyVal)) w = (Ok ps, w)) as Hps.
  { by destruct Hp as [[-> ->]| ->]. }
  unfold MSSQLSession_exec_sp.
  rewrite (bind_ok _ _ _ _ _ Hps).
  rewrite (bind_ok _ _ _ _ _ (load_some _ _ _ Hs)).
  rewrite (bind_ok _ _ _ _ _ (lib_call_ok _ _ H1)). fold n.
  assert (length (trace (emit e1 w)) = S n) as Hlen.
  { cbn. rewrite length_app. cbn. subst n. lia. }
  rewrite (bind_ok _ _ _ _ _ (lib_call_ok e2 (emit e1 w) H2)). rewrite Hlen.
  fold stmt.
  assert (trace (emit e2 (emit e1 w)) = trace w ++ [e1; e2]) as Ht2.
  { cbn. by rewrite <- app_assoc. }
  assert (lib_raises (trace (emit e2 (emit e1 w))) e3 = Some e) as H3'
    by (by rewrite Ht2).
  rewrite (bind_err _ _ _ _ _ (lib_call_err e3 _ _ H3')).
  unfold emit. cbn. by rewrite <- !app_assoc.
Qed.

(** ** [PostgreSQLSession.select_statement] *)

(** X5: for a string [query], [PostgreSQLSession.select_statement] makes
    one library call, [pd.read_sql] on the query exactly as given (no
    prefix) and on the session's connection, and returns its frame or
    raises what it raises; through a PostgreSQL object the dispatch
    reaches this method. *)
Theorem postgres_select_statement_unmodified self q w s :
  heap w !! self = Some s ->
  PostgreSQLSession_select_statement self (PyStr q) w =
    (match lib_raises (trace w) (ReadSql q (con s)) with
     | None => Ok (read_sql_result (trace w) q (con s))
     | Some e => Err e
     end,
     {| heap := heap w; trace := trace w ++ [ReadSql q (con s)] |}) /\
  (cls s = PostgreSQL ->
   select_statement self (PyStr q) w =
     PostgreSQLSession_select_statement self (PyStr q) w).
Proof.
  intros Hs. split.
  - unfold PostgreSQLSession_select_statement.
    rewrite (bind_ok _ _ _ _ _ (load_some _ _ _ Hs)).
    unfold read_sql, emit. by destruct (lib_raises _ _).
  - intros Hd. unfold select_statement.
    rewrite (bind_ok _ _ _ _ _ (load_some _ _ _ Hs)). by rewrite Hd.
Qed.

(** ** No operation but [close] looks at [is_connected] *)

(** X6: [select_statement], [exec_sp] and [df_to_db] do the same with a
    session whatever its [is_connected] says: same result, same library
    calls, and the flag left as it was found.  In particular they still
    go to the library after [close()]. *)
Theorem operations_ignore_is_connected b self w :
  (forall q,
     select_statement self q (with_flag b self w) =
       (fst (select_statement self q w),
        with_flag b self (snd (select_statement self q w)))) /\
  (forall sp ps,
     exec_sp self sp ps (with_flag b self w) =
       (fst (exec_sp self sp ps w),
        with_flag b self (snd (exec_sp self sp ps w)))) /\
  (forall df t i e k,
     df_to_db self df t i e k (with_flag b self w) =
       (fst (df_to_db self df t i e k w),
        with_flag b self (snd (df_to_db self df t i e k w)))).
Proof.
  assert (forall s, heap w !! self = Some s ->
            alter (set_is_connected b) self (heap w) !! self
            = Some (set_is_connected b s)) as Hsome.
  { intros s Hs. by rewrite lookup_alter_eq, Hs. }
  assert (heap w !! self = None ->
            alter (set_is_connected b) self (heap w) !! self = None) as Hnone.
  { intros Hs. by rewrite lookup_alter_eq, Hs. }
  repeat split; intros.
  - unfold select_statement, MSSQLSession_select_statement,
      PostgreSQLSession_select_statement, mbind, M_bind, load, read_sql,
      raise, emit, with_flag. cbn.
    destruct (heap w !! self) as [s|] eqn:Hs;
      [rewrite (Hsome s eq_refl)|by rewrite (Hnone eq_refl)]. cbn.
    destruct (cls s), q; cbn; try done;
      rewrite (Hsome s eq_refl), ?Hs; cbn; by destruct (lib_raises _ _).
  - unfold exec_sp, MSSQLSession_exec_sp, PostgreSQLSession_exec_sp,
      mbind, M_bind, mret, M_ret, load, raise, lib_call, emit, with_flag. cbn.
    destruct (heap w !! self) as [s|] eqn:Hs;
      [rewrite (Hsome s eq_refl)|by rewrite (Hnone eq_refl)]. cbn.
    destruct (cls s); [|done].
    destruct sp; cbn; try done.
    destruct ps; cbn; try done;
      rewrite (Hsome s eq_refl), ?Hs; cbn;
      repeat (destruct (lib_raises _ _); cbn; try done).
  - unfold df_to_db, mbind, M_bind, mret, M_ret, load, raise, lib_call, emit,
      with_flag.
    destruct t as [| | |name| |]; cbn; try done.
    destruct (split "." name) as [|a [|c [|d l]]]; cbn; try done.
    destruct (heap w !! self) as [s|] eqn:Hs;
      [rewrite (Hsome s eq_refl)|by rewrite (Hnone eq_refl)]. cbn.
    by destruct (lib_raises _ _).
Qed.

(** ** The constructor *)

(** X7: a constructor that returns has made exactly two library calls,
    [create_engine] and then [connect] on the engine it got, followed by
    one [print] of the banner when [silent] is false in a test and by
    nothing when it is true.  The new object holds the arguments as
    given, [silent] included (it is not turned into a [bool]), and the
    engine and connection those two calls returned. *)
Theorem constructor_effects d srv port_ dbn usr pwd silent w self w' :
  new d (PyStr srv) port_ (PyStr dbn) (PyStr usr) (PyStr pwd) silent w = (Ok self, w') ->
  exists s,
    heap w' !! self = Some s /\
    (cls s, server s, port s, db s, user s, password s, is_silent s)
      = (d, srv, port_, dbn, usr, pwd, silent) /\
    engine s = length (trace w) /\ con s = S (length (trace w)) /\
    trace w' =
      trace w ++ [engine_call d srv port_ dbn usr pwd; EngineConnect (engine s)]
              ++ (if truthy silent then [] else [Print (connected_message s "-")]).
Proof.
  rewrite new_strings.
  destruct (lib_raises _ _); [done|]. destruct (lib_raises _ _); [done|].
  intros [= <- <-]. eexists. cbn. rewrite lookup_insert_eq.
  split; [done|]. split; [done|]. split; [done|].
  split; [rewrite length_app; cbn; lia|]. by rewrite <- app_assoc.
Qed.

(** X8: when [create_engine] raises, the constructor raises the same
    exception and [connect] is never called; when [connect] raises, it
    raises that one.  Either way no object is created and no banner is
    printed. *)
Theorem constructor_library_failure d srv port_ dbn usr pwd silent w e :
  let ce := engine_call d srv port_ dbn usr pwd in
  let ec := EngineConnect (length (trace w)) in
  let out := new d (PyStr srv) port_ (PyStr dbn) (PyStr usr) (PyStr pwd) silent w in
  (lib_raises (trace w) ce = Some e ->
     out = (Err e, {| heap := heap w; trace := trace w ++ [ce] |})) /\
  (lib_raises (trace w) ce = None ->
   lib_raises (trace w ++ [ce]) ec = Some e ->
     out = (Err e, {| heap := heap w; trace := trace w ++ [ce; ec] |})).
Proof.
  intros ce ec out. subst out. rewrite new_strings. fold ce ec. split.
  - by intros ->.
  - intros -> ->. unfold emit. cbn. by rewrite <- app_assoc.
Qed.

(** X9: the object a constructor returns is a new one: its reference was
    not in use before, and every session that existed keeps all its
    attributes. *)
Theorem constructor_allocates_fresh d a b c e f g w self w' :
  new d a b c e f g w = (Ok self, w') ->
  heap w !! self = None /\
  (forall l, l <> self -> heap w' !! l = heap w !! l).
Proof.
  intros H.
  destruct a as [| | |srv| |]; try done. destruct c as [| | |dbn| |]; try done.
  destruct e as [| | |usr| |]; try done. destruct f as [| | |pwd| |]; try done.
  rewrite new_strings in H.
  destruct (lib_raises _ _); [done|]. destruct (lib_raises _ _); [done|].
  injection H as <- <-. split.
  - apply not_elem_of_dom, is_fresh.
  - intros l Hl. cbn. by rewrite lookup_insert_ne.
Qed.

(** ** [close] and the [with] statement *)

Lemma close_heap_cases self w l :
  heap (snd (close self w)) !! l = heap w !! l \/
  (l = self /\ exists s,
     heap w !! self = Some s /\ is_connected s = true /\
     heap (snd (close self w)) !! l = Some (set_is_connected false s)).
Proof.
  destruct (heap w !! self) as [s|] eqn:Hs; [|left; by rewrite (close_missing _ _ Hs)].
  destruct (is_connected s) eqn:Hc; [|left; by rewrite (close_closed _ _ _ Hs Hc)].
  destruct (lib_raises (trace w) (ConClose (con s))) as [e|] eqn:He.
  { left. by rewrite (close_connected_raises _ _ _ _ Hs Hc He). }
  rewrite (close_connected _ _ _ Hs Hc He). cbn.
  destruct (decide (l = self)) as [->|Hne].
  - right. split; [done|]. exists s. by rewrite lookup_insert_eq.
  - left. by rewrite lookup_insert_ne.
Qed.

Lemma run_op_session_cases o w l s :
  heap w !! l = Some s ->
  heap (run_op o w) !! l = Some s \/
  (is_connected s = true /\ heap (run_op o w) !! l = Some (set_is_connected false s)).
Proof.
  intros Hl.
  assert (forall self,
    heap (snd (close self w)) !! l = Some s \/
    (is_connected s = true /\
     heap (snd (close self w)) !! l = Some (set_is_connected false s))) as Hclose.
  { intros self. destruct (close_heap_cases self w l) as [E|(-> & s' & Hs & Hc & E)].
    - left. by rewrite E.
    - right. rewrite Hl in Hs. injection Hs as <-. by rewrite E. }
  destruct o; cbn [run_op].
  - destruct (new_heap d server_ port_ db_ user_ password_ silent w) as [E|[s' E]];
      rewrite E; [by left|]. left. rewrite lookup_insert_ne; [done|].
    intros <-. pose proof (is_fresh (dom (heap w))) as Hf.
    apply not_elem_of_dom in Hf. by rewrite Hf in Hl.
  - left. by rewrite print_message_heap.
  - left. by rewrite select_statement_heap.
  - left. by rewrite exec_sp_heap.
  - left. by rewrite df_to_db_heap.
  - apply Hclose.
  - by left.
  - rewrite exit_world. apply Hclose.
Qed.

(** X10: over any sequence of operations of the classes, whatever they
    return or raise, a session object stays in place with the class,
    server, port, database, user, password, engine, connection and
    [is_silent] it was built with; the only attribute ever written is
    [is_connected], and only from true to false. *)
Theorem sessions_are_stable ops : forall w l s,
  heap w !! l = Some s ->
  heap (run_ops ops w) !! l = Some s \/
  (is_connected s = true /\
   heap (run_ops ops w) !! l = Some (set_is_connected false s)).
Proof.
  induction ops as [|o ops IH]; intros w l s Hl; [by left|]. cbn.
  destruct (run_op_session_cases o w l s Hl) as [H|[Hc H]].
  - by apply IH.
  - right. split; [done|].
    destruct (IH _ _ _ H) as [H'|[Hc' _]]; [done|]. by cbn in Hc'.
Qed.

Lemma with_unfold self (body : loc -> M unit) w r1 w1 :
  body self w = (r1, w1) ->
  with_ self body w =
    match close self w1 with
    | (Ok _, w2) => (r1, w2)
    | (Err e, w2) => (Err e, w2)
    end.
Proof.
  intros Hb. unfold with_, __enter__. cbn. rewrite Hb.
  unfold __exit__, mbind, M_bind.
  destruct r1 as [[]|e]; destruct (close self w1) as [[[]|e'] w2]; done.
Qed.

(** X11: calling [close()] inside the [with] block is safe: the
    connection is closed once, by the call in the body; the [close()] of
    [__exit__] finds the session closed and only reports it.  A session
    that is not silent prints both notices. *)
Theorem with_body_that_closes self w s :
  heap w !! self = Some s -> is_connected s = true ->
  lib_raises (trace w) (ConClose (con s)) = None ->
  with_ self close w =
    (Ok tt,
     {| heap := <[self := set_is_connected false s]> (heap w);
        trace := trace w ++ ConClose (con s) ::
                   notice s "Connection closed" ++
                   notice s "Connection is already closed" |}).
Proof.
  intros Hs Hc He.
  rewrite (with_unfold _ _ _ _ _ (close_connected _ _ _ Hs Hc He)).
  rewrite (close_closed _ _ (set_is_connected false s)); [|cbn; by rewrite lookup_insert_eq|done].
  cbn. unfold notice at 3. cbn.
  by rewrite <- app_assoc.
Qed.

(** X12: when the connection's own [close] raises in [__exit__], the
    [with] statement raises that exception, also when the body had
    raised another one (which is lost), and [is_connected] stays true. *)
Theorem with_close_failure_masks_body_error self body w r1 w1 s e' :
  body self w = (r1, w1) ->
  heap w1 !! self = Some s -> is_connected s = true ->
  lib_raises (trace w1) (ConClose (con s)) = Some e' ->
  with_ self body w =
    (Err e', {| heap := heap w1; trace := trace w1 ++ [ConClose (con s)] |}) /\
  connected_flag self (snd (with_ self body w)) = Some true.
Proof.
  intros Hb Hs Hc He.
  rewrite (with_unfold _ _ _ _ _ Hb).
  rewrite (close_connected_raises _ _ _ _ Hs Hc He).
  split; [done|]. unfold connected_flag. cbn. by rewrite Hs, <- Hc.
Qed.

(** ** Formatting *)

(** X13: the credentials go into the engine URL as they are, with no
    quoting: a ':' typed at the end of the user name or at the start of
    the password gives the same URL, for both classes. *)
Theorem engine_url_is_not_quoted d srv port_ dbn usr a b :
  engine_call d srv port_ dbn (usr +:+ ":" +:+ a) b =
  engine_call d srv port_ dbn usr (a +:+ ":" +:+ b).
Proof.
  destruct d; cbn [engine_call]; f_equal;
    unfold MSSQLSession_url, PostgreSQLSession_url;
    by rewrite !str_app_assoc.
Qed.


(** X15: the notice of [close] is the message between two rules of '-',
    each exactly as long as the message. *)
Theorem framed_rule_width message_ :
  exists rule,
    framed message_ = rule +:+ nl +:+ message_ +:+ nl +:+ rule /\
    String.length rule = String.length message_ /\
    count_char "-" rule = String.length message_.
Proof.
  exists (str_repeat "-" (String.length message_)). split; [done|].
  split; [rewrite str_repeat_length; cbn; lia|].
  induction (String.length message_) as [|n IH]; [done|].
  cbn [str_repeat]. rewrite count_char_app, IH. done.
Qed.

End MoreProperties.

(** * The further properties at concrete inputs *)


Lemma mssql_exec_sp_call_sequence_witness :
  MSSQLSession_exec_sp (rt := calm) 0 (PyStr "sp1") (PyList [PyInt 1; PyInt 2])
    (sample_world MSSQL false true)
  = (Ok tt,
     {| heap := heap (sample_world MSSQL false true);
        trace := sample_trace ++
          [RawConnection 0; Cursor 2;
           CursorExecute 3 "set nocount on; exec sp1 ?, ?" [PyInt 1; PyInt 2];
           CursorCommit 3] |}).
Proof.
  apply (mssql_exec_sp_call_sequence (rt := calm) 0 "sp1"
           (PyList [PyInt 1; PyInt 2]) [PyInt 1; PyInt 2]
           (sample_world MSSQL false true) (sample_session MSSQL false true));
    try reflexivity.
  right. reflexivity.
Defined.

Lemma mssql_exec_sp_failed_execute_skips_commit_witness :
  MSSQLSession_exec_sp (rt := failing_execute) 0 (PyStr "nope") PyNone
    (sample_world MSSQL true true)
  = (Err (LibraryError "could not find stored procedure"),
     {| heap := heap (sample_world MSSQL true true);
        trace := sample_trace ++
          [RawConnection 0; Cursor 2;
           CursorExecute 3 "set nocount on; exec nope " []] |}).
Proof.
  apply (mssql_exec_sp_failed_execute_skips_commit (rt := failing_execute) 0
           "nope" PyNone [] (sample_world MSSQL true true)
           (sample_session MSSQL true true));
    try reflexivity.
  left. split; reflexivity.
Defined.

Lemma postgres_select_statement_unmodified_witness :
  select_statement (rt := calm) 0 (PyStr "select 1") (sample_world PostgreSQL true true)
  = (Ok (echo_frame "select 1"),
     {| heap := heap (sample_world PostgreSQL true true);
        trace := sample_trace ++ [ReadSql "select 1" 1] |}).
Proof.
  destruct (postgres_select_statement_unmodified (rt := calm) 0 "select 1"
              (sample_world PostgreSQL true true)
              (sample_session PostgreSQL true true) eq_refl) as (H1 & H2).
  rewrite (H2 eq_refl). exact H1.
Defined.

Lemma constructor_effects_witness :
  exists s,
    heap (snd (new (rt := calm) PostgreSQL (PyStr "srv") (PyInt 5432) (PyStr "sales")
                 (PyStr "ann") (PyStr "pw") PyNone empty_world)) !! 0 = Some s /\
    is_silent s = PyNone /\ port s = PyInt 5432 /\
    trace (snd (new (rt := calm) PostgreSQL (PyStr "srv") (PyInt 5432) (PyStr "sales")
                 (PyStr "ann") (PyStr "pw") PyNone empty_world)) =
      [CreateEngine "postgres://ann:pw@srv:5432/sales" false; EngineConnect 0;
       Print (connected_message s "-")].
Proof.
  destruct (constructor_effects (rt := calm) PostgreSQL "srv" (PyInt 5432) "sales"
              "ann" "pw" PyNone empty_world 0
              (snd (new (rt := calm) PostgreSQL (PyStr "srv") (PyInt 5432)
                      (PyStr "sales") (PyStr "ann") (PyStr "pw") PyNone empty_world)))
    as (s & Hs & Hattr & He & _ & Ht).
  { vm_compute. reflexivity. }
  exists s. split; [exact Hs|]. injection Hattr as _ _ Hp _ _ _ Hsil.
  split; [exact Hsil|]. split; [exact Hp|].
  rewrite Ht, He. reflexivity.
Defined.

Lemma constructor_library_failure_witness :
  new (rt := no_driver) MSSQL (PyStr "srv") (PyInt 1433) (PyStr "sales")
    (PyStr "ann") (PyStr "pw") (PyBool false) empty_world
  = (Err (LibraryError "no module named pyodbc"),
     {| heap := ∅;
        trace := [CreateEngine
          "mssql+pyodbc://ann:pw@srv:1433/sales?driver=ODBC+Driver+13+for+SQL+Server"
          true] |}).
Proof.
  destruct (constructor_library_failure (rt := no_driver) MSSQL "srv" (PyInt 1433)
              "sales" "ann" "pw" (PyBool false) empty_world
              (LibraryError "no module named pyodbc")) as (H & _).
  apply H. reflexivity.
Defined.

Lemma constructor_allocates_fresh_witness :
  let w := sample_world MSSQL true true in
  let out := new (rt := calm) PostgreSQL (PyStr "srv") (PyStr "5432") (PyStr "hr")
               (PyStr "bob") (PyStr "pw") (PyBool true) w in
  fst out = Ok 1 /\ heap w !! 1 = None /\ heap (snd out) !! 0 = heap w !! 0.
Proof.
  intros w out.
  assert (out = (Ok 1, snd out)) as H by (vm_compute; reflexivity).
  destruct (constructor_allocates_fresh (rt := calm) _ _ _ _ _ _ _ _ _ _ H)
    as (Hnew & Hold).
  split; [by rewrite H|]. split; [exact Hnew|]. apply Hold. discriminate.
Defined.

Lemma sessions_are_stable_witness :
  let w := run_ops (rt := calm)
             [OpSelectStatement 0 (PyStr "select 1"); OpClose 0;
              OpExecSp 0 (PyStr "sp1") PyNone; OpClose 0]
             (sample_world MSSQL true true) in
  heap w !! 0 = Some (sample_session MSSQL true true) \/
  (is_connected (sample_session MSSQL true true) = true /\
   heap w !! 0 = Some (set_is_connected false (sample_session MSSQL true true))).
Proof.
  apply (sessions_are_stable (rt := calm)). reflexivity.
Defined.

Lemma with_body_that_closes_witness :
  with_ (rt := calm) 0 (close (rt := calm)) (sample_world PostgreSQL true false)
  = (Ok tt,
     {| heap := {[ 0 := sample_session PostgreSQL false false ]};
        trace := sample_trace ++
          [ConClose 1; Print (framed "Connection closed");
           Print (framed "Connection is already closed")] |}).
Proof.
  rewrite (with_body_that_closes (rt := calm) 0 (sample_world PostgreSQL true false)
             (sample_session PostgreSQL true false) eq_refl eq_refl eq_refl).
  f_equal.
Defined.

Lemma with_close_failure_masks_body_error_witness :
  let body := fun _ : loc => raise (A := unit) (TypeError "boom") in
  let out := with_ (rt := stuck_close) 0 body (sample_world MSSQL true true) in
  fst out = Err (LibraryError "connection reset") /\
  connected_flag 0 (snd out) = Some true.
Proof.
  intros body out.
  destruct (with_close_failure_masks_body_error (rt := stuck_close) 0 body
              (sample_world MSSQL true true) (Err (TypeError "boom"))
              (sample_world MSSQL true true) (sample_session MSSQL true true)
              (LibraryError "connection reset")
              eq_refl eq_refl eq_refl eq_refl) as (H1 & H2).
  split; [|exact H2]. subst out. by rewrite H1.
Defined.

